(** * sat_sim and the CSM camera wrapper: argument validation and camera contracts

    A shallow embedding of

    - [src/asp/Tools/sat_sim.cc]: [handle_arguments] and [main];
    - [src/asp/Camera/CsmModel.h]: the inline members of [asp::CsmModel].

    C++ [double] values are IEEE-754 binary64 numbers, modelled with the
    standard library's [spec_float] (precision 53, exponent bound 1024), so
    that NaN, signed zeros and infinities behave under comparison as they do
    in the program.  Exceptions and the calls made to the rest of the tool
    chain are threaded through a small trace-and-error monad. *)

From Stdlib Require Import ZArith String List Bool Lia.
From Stdlib Require Import Floats.SpecFloat.
Import ListNotations.

Local Open Scope Z_scope.
Local Open Scope string_scope.

(** ** IEEE-754 binary64 *)

Module Double.

Definition prec : Z := 53.
Definition emax : Z := 1024.

Definition double : Type := spec_float.

(** [std::numeric_limits<double>::quiet_NaN()] *)
Definition NaN : double := S754_nan.

Definition zero : double := S754_zero false.

(** [std::isnan] *)
Definition isnan (x : double) : bool :=
  match x with
  | S754_nan => true
  | _ => false
  end.

(** The comparison operators of C++ on [double]: every ordered comparison
    with a NaN is false, and [!=] is the negation of [==]. *)
Definition eqb (x y : double) : bool := SFeqb x y.
Definition neqb (x y : double) : bool := negb (SFeqb x y).
Definition ltb (x y : double) : bool := SFltb x y.
Definition leb (x y : double) : bool := SFleb x y.

Definition add (x y : double) : double := SFadd prec emax x y.
Definition mul (x y : double) : double := SFmul prec emax x y.
Definition div (x y : double) : double := SFdiv prec emax x y.
Definition sqrt (x : double) : double := SFsqrt prec emax x.

(** An integer literal converted to [double] (round to nearest even). *)
Definition of_Z (z : Z) : double := binary_normalize prec emax z 0 false.

(** A decimal literal [n e-k], correctly rounded: the quotient of two
    exactly representable integers. *)
Definition of_decimal (n : Z) (k : nat) : double :=
  div (of_Z n) (of_Z (10 ^ Z.of_nat k)).

End Double.

Import Double.

(** ** Fixed-size vectors of [vw::Math] *)

Record Vector2 : Type := mkVector2 { v2_0 : double; v2_1 : double }.
Record Vector3 : Type := mkVector3 { v3_0 : double; v3_1 : double; v3_2 : double }.

(** [vw::Vector3()]: the default constructor fills the vector with zeros. *)
Definition Vector3_default : Vector3 := mkVector3 zero zero zero.

(** [operator==] on vectors: all components compare equal. *)
Definition Vector3_eqb (a b : Vector3) : bool :=
  eqb (v3_0 a) (v3_0 b) && eqb (v3_1 a) (v3_1 b) && eqb (v3_2 a) (v3_2 b).

(** [norm_2]: the square root of the sum of the squared components,
    accumulated from [0.0]. *)
Definition norm_2 (v : Vector2) : double :=
  sqrt (add (add zero (mul (v2_0 v) (v2_0 v))) (mul (v2_1 v) (v2_1 v))).

(** ** Options of the tool *)

(** [asp::SatSimOptions], with the fields that [sat_sim.cc] registers. *)
Record SatSimOptions : Type := mkSatSimOptions {
  dem_file : string;
  ortho_file : string;
  out_prefix : string;
  camera_list : string;
  first : Vector3;
  last : Vector3;
  num_cameras : Z;
  first_ground_pos : Vector2;
  last_ground_pos : Vector2;
  focal_length : double;
  optical_center : Vector2;
  image_size : Vector2;
  roll : double;
  pitch : double;
  yaw : double;
  velocity : double;
  horizontal_uncertainty : Vector3;
  jitter_frequency : double;
  no_images : bool;
  dem_height_error_tol : double
}.

(** The values the options have when the command line does not mention
    them: the [default_value]s of [general_options]; [out_prefix] has none
    and stays the empty string. *)
Definition default_options : SatSimOptions := {|
  dem_file := "";
  ortho_file := "";
  out_prefix := "";
  camera_list := "";
  first := Vector3_default;
  last := Vector3_default;
  num_cameras := 0;
  first_ground_pos := mkVector2 NaN NaN;
  last_ground_pos := mkVector2 NaN NaN;
  focal_length := NaN;
  optical_center := mkVector2 NaN NaN;
  image_size := mkVector2 NaN NaN;
  roll := NaN;
  pitch := NaN;
  yaw := NaN;
  velocity := NaN;
  horizontal_uncertainty := mkVector3 NaN NaN NaN;
  jitter_frequency := NaN;
  no_images := false;
  dem_height_error_tol := of_decimal 1 3
|}.

(** ** Exceptions, calls and the monad that threads them *)

(** The two exception classes of [vw] that the sources throw. *)
Inductive exception : Type :=
| ArgumentErr (msg : string)
| NoImplErr (msg : string).

(** What a run does that is visible from outside: text written to
    [vw_out], and the calls into the rest of the tool chain. *)
Inductive event : Type :=
| Printed (msg : string)
| Call_create_out_dir (prefix : string)
| Call_readGeorefImage (file : string)
| Call_readCameras
| Call_calcTrajectory (num : Z)
| Call_genCameras
| Call_genImages (external_cameras : bool).

(** A message on [vw_out] is no processing; everything else is. *)
Definition is_print (ev : event) : bool :=
  match ev with
  | Printed _ => true
  | _ => false
  end.

Definition M (A : Type) : Type := list event -> list event * (exception + A).

Definition ret {A : Type} (a : A) : M A := fun t => (t, inr a).

Definition bind {A B : Type} (m : M A) (k : A -> M B) : M B :=
  fun t =>
    match m t with
    | (t', inl e) => (t', inl e)
    | (t', inr a) => k a t'
    end.

Definition vw_throw {A : Type} (e : exception) : M A := fun t => (t, inl e).

Definition vw_out (msg : string) : M unit := fun t => ((t ++ [Printed msg])%list, inr tt).

(** A call of a collaborator: it is recorded, and its outcome (a value or
    an exception) is the outcome of the call. *)
Definition call {A : Type} (ev : event) (outcome : exception + A) : M A :=
  fun t => ((t ++ [ev])%list, outcome).

(** [if (b) stmt;] *)
Definition when (b : bool) (m : M unit) : M unit := if b then m else ret tt.

Declare Scope monad_scope.
Delimit Scope monad_scope with monad.
Notation "x <- m ;; k" := (bind m (fun x => k))
  (at level 61, m at next level, right associativity) : monad_scope.
Notation "m ;; k" := (bind m (fun _ => k))
  (at level 61, right associativity) : monad_scope.
Local Open Scope monad_scope.

Definition nl : string := String (Ascii.ascii_of_nat 10) EmptyString.

(** ** [handle_arguments]

    The function is modelled from the point where [asp::check_command_line]
    has stored the parsed command line in [opt]: an option that was not
    given holds its default value. *)

Section SatSim.

(** The collaborators, defined elsewhere in the tool chain.  Each may
    return a value or throw. *)
Variables GeorefImage Trajectory Cameras : Type.
Variable create_out_dir : string -> exception + unit.
Variable readGeorefImage : string -> exception + GeorefImage.
Variable readCameras : SatSimOptions -> exception + Cameras.
Variable calcTrajectory :
  SatSimOptions -> GeorefImage -> Z -> exception + Trajectory.
Variable genCameras : SatSimOptions -> Trajectory -> exception + Cameras.
Variable genImages :
  SatSimOptions -> bool -> Cameras -> GeorefImage -> GeorefImage ->
  exception + unit.

Definition msg_missing_input : string :=
  "Missing input DEM and/or ortho image." ++ nl.
Definition msg_missing_prefix : string :=
  "Missing output prefix." ++ nl.
Definition msg_image_size : string :=
  "The image size must be specified." ++ nl.
Definition msg_list_no_images : string :=
  "The --camera-list and --no-images options cannot be used together." ++ nl.
Definition msg_first_last : string :=
  "The first and last camera positions must be specified." ++ nl.
Definition msg_heights : string :=
  "Warning: The first and last camera positions have different "
  ++ "heights above the datum. This is supported but is not usual. "
  ++ "Check your inputs." ++ nl.
Definition msg_num_cameras : string :=
  "The number of cameras must be at least 2." ++ nl.
Definition msg_focal_length : string :=
  "The focal length must be positive." ++ nl.
Definition msg_optical_center : string :=
  "The optical center must be specified." ++ nl.
Definition msg_ground_pos : string :=
  "Either both first and last ground positions must be specified, or none."
  ++ nl.
Definition msg_roll_pitch_yaw : string :=
  "Either all of roll, pitch, and yaw must be specified, or none." ++ nl.
Definition msg_jitter_group : string :=
  "Either all of jitter-frequency, velocity, and "
  ++ "horizontal uncertainty must be specified, or none." ++ nl.
Definition msg_jitter_needs_angles : string :=
  "Modelling jitter requires specifying --roll, --pitch, and --yaw." ++ nl.
Definition msg_list_jitter : string :=
  "The --camera-list, --jitter-frequency, "
  ++ "--velocity, and --horizontal-uncertainty options cannot be used together."
  ++ nl.
Definition msg_velocity : string :=
  "The satellite velocity must be positive." ++ nl.
Definition msg_uncertainty : string :=
  "The horizontal uncertainty must be non-negative." ++ nl.
Definition msg_frequency : string :=
  "The jitter frequency must be positive." ++ nl.

(** [int(std::isnan(roll)) + int(std::isnan(pitch)) + int(std::isnan(yaw))] *)
Definition angles_unset (opt : SatSimOptions) : Z :=
  Z.b2z (isnan (roll opt)) + Z.b2z (isnan (pitch opt)) + Z.b2z (isnan (yaw opt)).

(** The second [ans]: how many of the five jitter numbers are not NaN. *)
Definition jitter_set (opt : SatSimOptions) : Z :=
  Z.b2z (negb (isnan (jitter_frequency opt))) +
  Z.b2z (negb (isnan (velocity opt))) +
  Z.b2z (negb (isnan (v3_0 (horizontal_uncertainty opt)))) +
  Z.b2z (negb (isnan (v3_1 (horizontal_uncertainty opt)))) +
  Z.b2z (negb (isnan (v3_2 (horizontal_uncertainty opt)))).

Definition have_roll_pitch_yaw (opt : SatSimOptions) : bool :=
  negb (isnan (roll opt)) && negb (isnan (pitch opt)) && negb (isnan (yaw opt)).

Definition handle_arguments (opt : SatSimOptions) : M unit :=
  when ((dem_file opt =? "")%string || (ortho_file opt =? "")%string)
    (vw_throw (ArgumentErr msg_missing_input)) ;;
  when (out_prefix opt =? "")%string
    (vw_throw (ArgumentErr msg_missing_prefix)) ;;
  when (isnan (v2_0 (image_size opt)) || isnan (v2_1 (image_size opt)))
    (vw_throw (ArgumentErr msg_image_size)) ;;
  when (negb (camera_list opt =? "")%string && no_images opt)
    (vw_throw (ArgumentErr msg_list_no_images)) ;;
  when (camera_list opt =? "")%string
    (when (Vector3_eqb (first opt) Vector3_default
           || Vector3_eqb (last opt) Vector3_default)
       (vw_throw (ArgumentErr msg_first_last)) ;;
     when (neqb (v3_2 (first opt)) (v3_2 (last opt)))
       (vw_out msg_heights) ;;
     when (num_cameras opt <? 2)%Z
       (vw_throw (ArgumentErr msg_num_cameras)) ;;
     when (isnan (focal_length opt))
       (vw_throw (ArgumentErr msg_focal_length)) ;;
     when (isnan (v2_0 (optical_center opt)) || isnan (v2_1 (optical_center opt)))
       (vw_throw (ArgumentErr msg_optical_center)) ;;
     when (negb (Bool.eqb (isnan (norm_2 (first_ground_pos opt)))
                          (isnan (norm_2 (last_ground_pos opt)))))
       (vw_throw (ArgumentErr msg_ground_pos)) ;;
     let ans := angles_unset opt in
     when (negb (ans =? 0)%Z && negb (ans =? 3)%Z)
       (vw_throw (ArgumentErr msg_roll_pitch_yaw))) ;;
  let ans := jitter_set opt in
  when (negb (ans =? 0)%Z && negb (ans =? 5)%Z)
    (vw_throw (ArgumentErr msg_jitter_group)) ;;
  when (negb (ans =? 0)%Z && negb (have_roll_pitch_yaw opt))
    (vw_throw (ArgumentErr msg_jitter_needs_angles)) ;;
  when (negb (camera_list opt =? "")%string && negb (ans =? 0)%Z)
    (vw_throw (ArgumentErr msg_list_jitter)) ;;
  when (leb (velocity opt) zero)
    (vw_throw (ArgumentErr msg_velocity)) ;;
  when (ltb (v3_0 (horizontal_uncertainty opt)) zero
        || ltb (v3_1 (horizontal_uncertainty opt)) zero
        || ltb (v3_2 (horizontal_uncertainty opt)) zero)
    (vw_throw (ArgumentErr msg_uncertainty)) ;;
  when (leb (jitter_frequency opt) zero)
    (vw_throw (ArgumentErr msg_frequency)) ;;
  call (Call_create_out_dir (out_prefix opt)) (create_out_dir (out_prefix opt)).

(** ** [main]: the body of the [try] block *)

Definition main_try (opt : SatSimOptions) : M unit :=
  handle_arguments opt ;;
  dem <- call (Call_readGeorefImage (dem_file opt))
              (readGeorefImage (dem_file opt)) ;;
  ortho <- call (Call_readGeorefImage (ortho_file opt))
                (readGeorefImage (ortho_file opt)) ;;
  ec <- (if negb (camera_list opt =? "")%string
         then
           cams <- call Call_readCameras (readCameras opt) ;;
           ret (true, cams)
         else
           traj <- call (Call_calcTrajectory (num_cameras opt))
                        (calcTrajectory opt dem (num_cameras opt)) ;;
           cams <- call Call_genCameras (genCameras opt traj) ;;
           ret (false, cams)) ;;
  when (negb (no_images opt))
    (call (Call_genImages (fst ec))
          (genImages opt (fst ec) (snd ec) dem ortho)).

End SatSim.


Arguments main_try {GeorefImage Trajectory Cameras}.

(** ** Changing options, and sample command lines *)

Definition set_camera_list (f : string) (o : SatSimOptions) : SatSimOptions :=
  mkSatSimOptions (dem_file o) (ortho_file o) (out_prefix o) f
    (first o) (last o) (num_cameras o) (first_ground_pos o) (last_ground_pos o)
    (focal_length o) (optical_center o) (image_size o)
    (roll o) (pitch o) (yaw o) (velocity o) (horizontal_uncertainty o)
    (jitter_frequency o) (no_images o) (dem_height_error_tol o).

Definition set_first (v : Vector3) (o : SatSimOptions) : SatSimOptions :=
  mkSatSimOptions (dem_file o) (ortho_file o) (out_prefix o) (camera_list o)
    v (last o) (num_cameras o) (first_ground_pos o) (last_ground_pos o)
    (focal_length o) (optical_center o) (image_size o)
    (roll o) (pitch o) (yaw o) (velocity o) (horizontal_uncertainty o)
    (jitter_frequency o) (no_images o) (dem_height_error_tol o).

Definition set_num (n : Z) (o : SatSimOptions) : SatSimOptions :=
  mkSatSimOptions (dem_file o) (ortho_file o) (out_prefix o) (camera_list o)
    (first o) (last o) n (first_ground_pos o) (last_ground_pos o)
    (focal_length o) (optical_center o) (image_size o)
    (roll o) (pitch o) (yaw o) (velocity o) (horizontal_uncertainty o)
    (jitter_frequency o) (no_images o) (dem_height_error_tol o).

Definition set_angles (r p y : double) (o : SatSimOptions) : SatSimOptions :=
  mkSatSimOptions (dem_file o) (ortho_file o) (out_prefix o) (camera_list o)
    (first o) (last o) (num_cameras o) (first_ground_pos o) (last_ground_pos o)
    (focal_length o) (optical_center o) (image_size o)
    r p y (velocity o) (horizontal_uncertainty o)
    (jitter_frequency o) (no_images o) (dem_height_error_tol o).

Definition set_jitter (freq vel : double) (hu : Vector3) (o : SatSimOptions)
  : SatSimOptions :=
  mkSatSimOptions (dem_file o) (ortho_file o) (out_prefix o) (camera_list o)
    (first o) (last o) (num_cameras o) (first_ground_pos o) (last_ground_pos o)
    (focal_length o) (optical_center o) (image_size o)
    (roll o) (pitch o) (yaw o) vel hu freq (no_images o) (dem_height_error_tol o).

(** [--dem dem.tif --ortho ortho.tif -o run/run --first 0 0 500
    --last 100 0 500 --num 2 --focal-length 1000 --optical-center 50 50
    --image-size 100 100] *)
Definition sample_options : SatSimOptions := {|
  dem_file := "dem.tif";
  ortho_file := "ortho.tif";
  out_prefix := "run/run";
  camera_list := "";
  first := mkVector3 (of_Z 0) (of_Z 0) (of_Z 500);
  last := mkVector3 (of_Z 100) (of_Z 0) (of_Z 500);
  num_cameras := 2;
  first_ground_pos := mkVector2 NaN NaN;
  last_ground_pos := mkVector2 NaN NaN;
  focal_length := of_Z 1000;
  optical_center := mkVector2 (of_Z 50) (of_Z 50);
  image_size := mkVector2 (of_Z 100) (of_Z 100);
  roll := NaN;
  pitch := NaN;
  yaw := NaN;
  velocity := NaN;
  horizontal_uncertainty := mkVector3 NaN NaN NaN;
  jitter_frequency := NaN;
  no_images := false;
  dem_height_error_tol := of_decimal 1 3
|}.

(** [... --roll 10 --pitch 20 --yaw 30] *)
Definition sample_with_angles : SatSimOptions :=
  set_angles (of_Z 10) (of_Z 20) (of_Z 30) sample_options.

(** [... --jitter-frequency 5 --velocity 7500 --horizontal-uncertainty 0 2 0] *)
Definition sample_with_jitter : SatSimOptions :=
  set_jitter (of_Z 5) (of_Z 7500) (mkVector3 (of_Z 0) (of_Z 2) (of_Z 0))
    sample_options.

(** [--camera-list cameras.txt] in place of the generated cameras. *)
Definition sample_with_list : SatSimOptions :=
  set_camera_list "cameras.txt" sample_options.

(** [... --camera-list cameras.txt --roll 10 --pitch 20 --yaw 30] *)
Definition sample_list_angles : SatSimOptions :=
  set_angles (of_Z 10) (of_Z 20) (of_Z 30) sample_with_list.

(** [... --jitter-frequency 5] and nothing else of the jitter group. *)
Definition sample_only_frequency : SatSimOptions :=
  set_jitter (of_Z 5) NaN (mkVector3 NaN NaN NaN) sample_with_angles.

(** [... --roll 10 --pitch 20 --yaw 30 --jitter-frequency 5
    --velocity 7500 --horizontal-uncertainty 0 2 0] *)
Definition sample_full : SatSimOptions :=
  set_jitter (of_Z 5) (of_Z 7500) (mkVector3 (of_Z 0) (of_Z 2) (of_Z 0))
    sample_with_angles.

(** The same with [--velocity -7500]. *)
Definition sample_negative_velocity : SatSimOptions :=
  set_jitter (of_Z 5) (of_Z (-7500)) (mkVector3 (of_Z 0) (of_Z 2) (of_Z 0))
    sample_with_angles.

(** [... --num 1] *)
Definition sample_one_camera : SatSimOptions := set_num 1 sample_options.

(** [... --first 0 0 0] *)
Definition sample_zero_first : SatSimOptions :=
  set_first (mkVector3 (of_Z 0) (of_Z 0) (of_Z 0)) sample_options.

(** A collaborator that succeeds. *)
Definition succeed {A B : Type} (b : B) : A -> exception + B := fun _ => inr b.

(** A run in which every collaborator succeeds. *)
Definition sample_run (opt : SatSimOptions) : list event * (exception + unit) :=
  main_try (GeorefImage := unit) (Trajectory := unit) (Cameras := unit)
    (succeed tt) (succeed tt) (succeed tt)
    (fun _ _ _ => inr tt) (fun _ _ => inr tt) (fun _ _ _ _ _ => inr tt)
    opt [].

(** ** [asp::CsmModel]: the inline members of the class *)

Module CsmModel.

(** Do not set this lower than 1e-8, as then UsgsAstroLsSensorModel will
    return junk. *)
Definition DEFAULT_CSM_DESIRED_PRECISISON : double := of_decimal 1 8.

Section Csm.

(** [csm::RasterGM] and [vw::Quaternion<double>] are defined outside the
    repository; [Quaternion_default] is the value of [vw::Quaternion<double>()]. *)
Variables RasterGM Quaternion : Type.
Variable Quaternion_default : Quaternion.

(** The data members.  The shared pointer [m_gm_model] may be null. *)
Record t : Type := mk {
  m_gm_model : option RasterGM;
  m_desired_precision : double;
  m_semi_major_axis : double;
  m_semi_minor_axis : double;
  m_sun_position : Vector3
}.

Definition type (m : t) : string := "CSM".

Definition camera_pose (m : t) (pix : Vector2) : M Quaternion :=
  vw_throw (A := unit) (NoImplErr "CsmModel: Cannot retrieve camera_pose!") ;;
  ret Quaternion_default.

Definition sun_position (m : t) : Vector3 := m_sun_position m.

Definition setDesiredPrecision (desired_precision : double) (m : t) : t :=
  {| m_gm_model := m_gm_model m;
     m_desired_precision := desired_precision;
     m_semi_major_axis := m_semi_major_axis m;
     m_semi_minor_axis := m_semi_minor_axis m;
     m_sun_position := m_sun_position m |}.

(** Modelled from the spec: the constructor [CsmModel()] is only declared
    in the header, its body is in [CsmModel.cc].  The spec gives a model
    the default precision 1e-8, the constant above, as its configured
    precision; what the other members start as is left to the caller. *)
Definition CsmModel (gm : option RasterGM) (major minor : double)
    (sun : Vector3) : t :=
  {| m_gm_model := gm;
     m_desired_precision := DEFAULT_CSM_DESIRED_PRECISISON;
     m_semi_major_axis := major;
     m_semi_minor_axis := minor;
     m_sun_position := sun |}.

End Csm.

Arguments m_gm_model {RasterGM}.
Arguments m_desired_precision {RasterGM}.
Arguments m_semi_major_axis {RasterGM}.
Arguments m_semi_minor_axis {RasterGM}.
Arguments m_sun_position {RasterGM}.
Arguments camera_pose {RasterGM Quaternion}.
Arguments setDesiredPrecision {RasterGM}.
Arguments CsmModel {RasterGM}.

End CsmModel.

(** ** What a run of the validation can end in *)

Definition outcome : Type := (list event * (exception + unit))%type.

(** The run stopped with an [ArgumentErr] and, up to then, had only
    written messages. *)
Definition rejected_with (msg : string) (r : outcome) : Prop :=
  snd r = inl (ArgumentErr msg) /\ forallb is_print (fst r) = true.

Definition rejected (r : outcome) : Prop := exists msg, rejected_with msg r.

Definition accepted (r : outcome) : Prop := snd r = inr tt.

(** The facts that [handle_arguments] has established when it reaches
    its last statement. *)
Record validated (opt : SatSimOptions) : Prop := {
  val_inputs : dem_file opt <> "" /\ ortho_file opt <> "";
  val_prefix : out_prefix opt <> "";
  val_image_size :
    isnan (v2_0 (image_size opt)) = false /\ isnan (v2_1 (image_size opt)) = false;
  val_list_images : camera_list opt <> "" -> no_images opt = false;
  val_positions :
    camera_list opt = "" ->
    Vector3_eqb (first opt) Vector3_default = false /\
    Vector3_eqb (last opt) Vector3_default = false;
  val_num : camera_list opt = "" -> 2 <= num_cameras opt;
  val_intrinsics :
    camera_list opt = "" ->
    isnan (focal_length opt) = false /\
    isnan (v2_0 (optical_center opt)) = false /\
    isnan (v2_1 (optical_center opt)) = false;
  val_ground_pos :
    camera_list opt = "" ->
    isnan (norm_2 (first_ground_pos opt)) = isnan (norm_2 (last_ground_pos opt));
  val_angles :
    camera_list opt = "" -> angles_unset opt = 0 \/ angles_unset opt = 3;
  val_jitter_group : jitter_set opt = 0 \/ jitter_set opt = 5;
  val_jitter_angles : jitter_set opt <> 0 -> have_roll_pitch_yaw opt = true;
  val_jitter_list : jitter_set opt <> 0 -> camera_list opt = "";
  val_velocity : leb (velocity opt) zero = false;
  val_uncertainty :
    ltb (v3_0 (horizontal_uncertainty opt)) zero = false /\
    ltb (v3_1 (horizontal_uncertainty opt)) zero = false /\
    ltb (v3_2 (horizontal_uncertainty opt)) zero = false;
  val_frequency : leb (jitter_frequency opt) zero = false
}.

(** ** The course of a run *)

(** What [handle_arguments] writes before it is done: the warning about
    the heights, when the cameras are generated and the two heights are
    not equal. *)
Definition heights_warning (opt : SatSimOptions) : list event :=
  if (camera_list opt =? "")%string && neqb (v3_2 (first opt)) (v3_2 (last opt))
  then [Printed msg_heights] else [].

(** What a run of [main] that nothing stops does, in order. *)
Definition script (opt : SatSimOptions) : list event :=
  (heights_warning opt ++
   [Call_create_out_dir (out_prefix opt);
    Call_readGeorefImage (dem_file opt);
    Call_readGeorefImage (ortho_file opt)] ++
   (if negb (camera_list opt =? "")%string
    then [Call_readCameras]
    else [Call_calcTrajectory (num_cameras opt); Call_genCameras]) ++
   (if no_images opt
    then []
    else [Call_genImages (negb (camera_list opt =? "")%string)]))%list.

(** The options that describe the cameras to generate. *)
Definition set_generation (fst_pos lst_pos : Vector3) (n : Z)
    (fst_ground lst_ground : Vector2) (focal : double) (center : Vector2)
    (o : SatSimOptions) : SatSimOptions :=
  mkSatSimOptions (dem_file o) (ortho_file o) (out_prefix o) (camera_list o)
    fst_pos lst_pos n fst_ground lst_ground
    focal center (image_size o)
    (roll o) (pitch o) (yaw o) (velocity o) (horizontal_uncertainty o)
    (jitter_frequency o) (no_images o) (dem_height_error_tol o).


(** A vector with a component that is NaN. *)
Definition Vector2_has_nan (v : Vector2) : bool :=
  isnan (v2_0 v) || isnan (v2_1 v).

(** [--first-ground-pos 10 20 --last-ground-pos 90 20] *)
Definition sample_with_targets : SatSimOptions :=
  set_generation (first sample_options) (last sample_options) 2
    (mkVector2 (of_Z 10) (of_Z 20)) (mkVector2 (of_Z 90) (of_Z 20))
    (of_Z 1000) (mkVector2 (of_Z 50) (of_Z 50)) sample_options.

(** [--first-ground-pos 10 20] alone. *)
Definition sample_one_target : SatSimOptions :=
  set_generation (first sample_options) (last sample_options) 2
    (mkVector2 (of_Z 10) (of_Z 20)) (mkVector2 NaN NaN)
    (of_Z 1000) (mkVector2 (of_Z 50) (of_Z 50)) sample_options.

(** [--roll 10] alone. *)
Definition sample_only_roll : SatSimOptions :=
  set_angles (of_Z 10) NaN NaN sample_options.

(** [--camera-list cameras.txt --no-images] *)
Definition sample_list_no_images : SatSimOptions :=
  mkSatSimOptions "dem.tif" "ortho.tif" "run/run" "cameras.txt"
    Vector3_default Vector3_default 0 (mkVector2 NaN NaN) (mkVector2 NaN NaN)
    NaN (mkVector2 NaN NaN) (mkVector2 (of_Z 100) (of_Z 100))
    NaN NaN NaN NaN (mkVector3 NaN NaN NaN) NaN true (of_decimal 1 3).

(** [... --last 100 0 700]: the two heights differ. *)
Definition sample_climbing : SatSimOptions :=
  set_generation (first sample_options)
    (mkVector3 (of_Z 100) (of_Z 0) (of_Z 700)) 2
    (mkVector2 NaN NaN) (mkVector2 NaN NaN)
    (of_Z 1000) (mkVector2 (of_Z 50) (of_Z 50)) sample_options.

(** A result of rounding: a zero, an infinity or a finite number of the
    sign [s], and so not a NaN. *)
Definition signed (s : bool) (x : double) : Prop :=
  x = S754_zero s \/ x = S754_infinity s \/
  exists m e, x = S754_finite s m e.

(** ** Laws of the monad, used to walk through the checks *)

Lemma bind_assoc {A B C : Type} (m : M A) (f : A -> M B) (g : B -> M C) t :
  bind (bind m f) g t = bind m (fun a => bind (f a) g) t.
Proof.
  unfold bind. destruct (m t) as [t' [e | a]]; reflexivity.
Qed.

Lemma bind_check {B : Type} (b : bool) (e : exception) (k : unit -> M B) t :
  bind (when b (vw_throw e)) k t = if b then (t, inl e) else k tt t.
Proof.
  destruct b; reflexivity.
Qed.

Lemma bind_warn {B : Type} (b : bool) (s : string) (k : unit -> M B) t :
  bind (when b (vw_out s)) k t = k tt (if b then (t ++ [Printed s])%list else t).
Proof.
  destruct b; reflexivity.
Qed.

Lemma bind_when {B : Type} (b : bool) (m : M unit) (k : unit -> M B) t :
  bind (when b m) k t = if b then bind m k t else k tt t.
Proof.
  destruct b; reflexivity.
Qed.

(** One statement of [handle_arguments]: rewrite the head of the program
    and split on the test it exposes. *)
Ltac va_step :=
  cbv zeta beta;
  first [ rewrite bind_check | rewrite bind_warn | rewrite bind_when
        | rewrite bind_assoc ];
  cbv beta;
  try match goal with
      | |- context [if ?b then _ else _] => destruct b eqn:?
      end.

Ltac reject_here := eexists; split; reflexivity.

(** Turn the recorded results of the tests into propositions. *)
Ltac tests_to_props :=
  repeat match goal with
    | H : context [negb true] |- _ => cbn [negb andb] in H
    | H : context [negb false] |- _ => cbn [negb andb] in H
    | H : _ || _ = false |- _ => apply orb_false_elim in H; destruct H
    | H : _ && _ = false |- _ => apply andb_false_iff in H; destruct H
    | H : _ && _ = true |- _ => apply andb_true_iff in H; destruct H
    | H : negb _ = false |- _ => apply negb_false_iff in H
    | H : negb _ = true |- _ => apply negb_true_iff in H
    | H : (_ =? _)%string = false |- _ => apply String.eqb_neq in H
    | H : (_ =? _)%string = true |- _ => apply String.eqb_eq in H
    | H : (_ <? _)%Z = false |- _ => apply Z.ltb_ge in H
    | H : (_ =? _)%Z = true |- _ => apply Z.eqb_eq in H
    | H : (_ =? _)%Z = false |- _ => apply Z.eqb_neq in H
    | H : Bool.eqb _ _ = true |- _ => apply Bool.eqb_prop in H
    end.

(** A run that got as far as calling a collaborator was not rejected. *)
Lemma call_not_rejected (msg : string) (ev : event) (o : exception + unit)
    (t : list event) :
  is_print ev = false -> ~ rejected_with msg (call ev o t).
Proof.
  intros He [_ Hp]. unfold call in Hp. cbn [fst] in Hp.
  rewrite forallb_app in Hp. cbn [forallb] in Hp. rewrite He in Hp.
  rewrite andb_false_r in Hp. discriminate Hp.
Qed.

(** A run that stopped with one message was not rejected with another. *)
Ltac other_message :=
  match goal with
  | |- ~ rejected_with _ (_, inl (ArgumentErr _)) =>
      let Hm := fresh "Hm" in
      intros [Hm _]; cbn [snd] in Hm; vm_compute in Hm; discriminate Hm
  end.

(** ** Comparisons with zero *)

Lemma leb_nan_l (x y : double) : isnan x = true -> leb x y = false.
Proof.
  destruct x; simpl; intros H; try discriminate H. reflexivity.
Qed.

Lemma ltb_nan_l (x y : double) : isnan x = true -> ltb x y = false.
Proof.
  destruct x; simpl; intros H; try discriminate H. reflexivity.
Qed.

Lemma leb_zero_not_nan (x : double) : leb x zero = true -> isnan x = false.
Proof.
  destruct x; simpl; intros H; try reflexivity. discriminate H.
Qed.

Lemma ltb_zero_not_nan (x : double) : ltb x zero = true -> isnan x = false.
Proof.
  destruct x; simpl; intros H; try reflexivity. discriminate H.
Qed.

(** A number that is not NaN and not [<= 0] is [> 0]. *)
Lemma not_leb_zero (x : double) :
  isnan x = false -> leb x zero = false -> ltb zero x = true.
Proof.
  destruct x as [s | s | | s m e]; simpl; intros Hn Hl;
    try discriminate; destruct s; try discriminate; reflexivity.
Qed.

(** A number that is not NaN and not [< 0] is [>= 0]. *)
Lemma not_ltb_zero (x : double) :
  isnan x = false -> ltb x zero = false -> leb zero x = true.
Proof.
  destruct x as [s | s | | s m e]; simpl; intros Hn Hl;
    try discriminate; try reflexivity; destruct s; try discriminate; reflexivity.
Qed.

(** The zero vector, with either sign of zero, equals [vw::Vector3()]. *)
Lemma Vector3_eqb_zero (a b c : bool) :
  Vector3_eqb (mkVector3 (S754_zero a) (S754_zero b) (S754_zero c))
    Vector3_default = true.
Proof. reflexivity. Qed.

(** ** Counting the options that are set *)

Lemma jitter_set_range (opt : SatSimOptions) : 0 <= jitter_set opt <= 5.
Proof.
  unfold jitter_set.
  destruct (isnan (jitter_frequency opt)), (isnan (velocity opt)),
    (isnan (v3_0 (horizontal_uncertainty opt))),
    (isnan (v3_1 (horizontal_uncertainty opt))),
    (isnan (v3_2 (horizontal_uncertainty opt))); simpl; lia.
Qed.

Lemma jitter_set_none (opt : SatSimOptions) :
  jitter_set opt = 0 <->
  isnan (jitter_frequency opt) = true /\ isnan (velocity opt) = true /\
  isnan (v3_0 (horizontal_uncertainty opt)) = true /\
  isnan (v3_1 (horizontal_uncertainty opt)) = true /\
  isnan (v3_2 (horizontal_uncertainty opt)) = true.
Proof.
  unfold jitter_set.
  destruct (isnan (jitter_frequency opt)), (isnan (velocity opt)),
    (isnan (v3_0 (horizontal_uncertainty opt))),
    (isnan (v3_1 (horizontal_uncertainty opt))),
    (isnan (v3_2 (horizontal_uncertainty opt))); simpl;
    intuition (try discriminate; try lia).
Qed.

Lemma jitter_set_all (opt : SatSimOptions) :
  jitter_set opt = 5 <->
  isnan (jitter_frequency opt) = false /\ isnan (velocity opt) = false /\
  isnan (v3_0 (horizontal_uncertainty opt)) = false /\
  isnan (v3_1 (horizontal_uncertainty opt)) = false /\
  isnan (v3_2 (horizontal_uncertainty opt)) = false.
Proof.
  unfold jitter_set.
  destruct (isnan (jitter_frequency opt)), (isnan (velocity opt)),
    (isnan (v3_0 (horizontal_uncertainty opt))),
    (isnan (v3_1 (horizontal_uncertainty opt))),
    (isnan (v3_2 (horizontal_uncertainty opt))); simpl;
    intuition (try discriminate; try lia).
Qed.

Lemma have_roll_pitch_yaw_false (opt : SatSimOptions) :
  have_roll_pitch_yaw opt = false <->
  isnan (roll opt) = true \/ isnan (pitch opt) = true \/ isnan (yaw opt) = true.
Proof.
  unfold have_roll_pitch_yaw.
  destruct (isnan (roll opt)), (isnan (pitch opt)), (isnan (yaw opt)); simpl;
    intuition discriminate.
Qed.

(** ** The shape of every run *)

Section Run.

Variables GeorefImage Trajectory Cameras : Type.
Variable create_out_dir : string -> exception + unit.
Variable readGeorefImage : string -> exception + GeorefImage.
Variable readCameras : SatSimOptions -> exception + Cameras.
Variable calcTrajectory :
  SatSimOptions -> GeorefImage -> Z -> exception + Trajectory.
Variable genCameras : SatSimOptions -> Trajectory -> exception + Cameras.
Variable genImages :
  SatSimOptions -> bool -> Cameras -> GeorefImage -> GeorefImage ->
  exception + unit.

Local Abbreviation validate := (handle_arguments create_out_dir).
Local Abbreviation run :=
  (main_try create_out_dir readGeorefImage readCameras calcTrajectory
     genCameras genImages).

(** Every run of [handle_arguments] either stops at one of its checks,
    or has established [validated] and calls [create_out_dir] last. *)
Lemma handle_arguments_cases (opt : SatSimOptions) :
  rejected (validate opt []) \/
  (validated opt /\
   exists t,
     forallb is_print t = true /\
     validate opt [] =
       ((t ++ [Call_create_out_dir (out_prefix opt)])%list,
        create_out_dir (out_prefix opt))).
Proof.
  unfold handle_arguments.
  repeat (va_step; try solve [left; reject_here]).
  all: right; unfold call; tests_to_props.
  all: split;
    [ constructor; intros; repeat split; auto; try congruence; try lia
    | eexists; split; [ | reflexivity ]; reflexivity ].
Qed.

Lemma rejected_not_accepted (r : outcome) : rejected r -> ~ accepted r.
Proof.
  intros [msg [H _]] Ha. unfold accepted in Ha. congruence.
Qed.

Lemma accepted_validated (opt : SatSimOptions) :
  accepted (validate opt []) -> validated opt.
Proof.
  intros Ha. destruct (handle_arguments_cases opt) as [Hr | [Hv _]].
  - destruct (rejected_not_accepted _ Hr Ha).
  - exact Hv.
Qed.

Lemma unvalidated_rejected (opt : SatSimOptions) :
  ~ validated opt -> rejected (validate opt []).
Proof.
  intros Hn. destruct (handle_arguments_cases opt) as [Hr | [Hv _]].
  - exact Hr.
  - destruct (Hn Hv).
Qed.

(** A run that validation rejects is over: [main] does nothing more. *)
Lemma main_try_rejected (opt : SatSimOptions) :
  rejected (validate opt []) -> run opt [] = validate opt [].
Proof.
  intros [msg [Hs _]]. unfold main_try.
  unfold bind at 1.
  destruct (validate opt []) as [t [e | u]]; [reflexivity | discriminate Hs].
Qed.

Lemma printed_only_no_call (t : list event) (ev : event) :
  forallb is_print t = true -> In ev t -> is_print ev = true.
Proof.
  intros Hall Hin. rewrite forallb_forall in Hall. exact (Hall ev Hin).
Qed.

(** The trajectory is computed only for validated options. *)
Lemma main_try_calcTrajectory (opt : SatSimOptions) (n : Z) :
  In (Call_calcTrajectory n) (fst (run opt [])) -> validated opt.
Proof.
  intros Hin. destruct (handle_arguments_cases opt) as [Hr | [Hv _]].
  - rewrite (main_try_rejected opt Hr) in Hin.
    destruct Hr as [msg [_ Hp]].
    pose proof (printed_only_no_call _ _ Hp Hin) as Hc. discriminate Hc.
  - exact Hv.
Qed.

(** ** The camera list and the angles *)

(** C1 (amended).  A command line with a camera list is not rejected for
    giving roll, pitch or yaw: when no jitter option is set, validation
    goes the same way whatever the three angles are.  What fails with an
    [ArgumentErr], before any processing, is a camera list together with
    any of the jitter options. *)
Theorem camera_list_ignores_angles (opt : SatSimOptions) :
  camera_list opt <> "" ->
  (jitter_set opt <> 0 -> rejected (validate opt [])) /\
  (jitter_set opt = 0 ->
   forall (r p y : double) (t : list event),
     validate (set_angles r p y opt) t = validate opt t).
Proof.
  intros Hl. split.
  - intros Hj. apply unvalidated_rejected. intros V.
    exact (Hl (val_jitter_list opt V Hj)).
  - intros Hj r p y t. unfold handle_arguments.
    change (jitter_set (set_angles r p y opt)) with (jitter_set opt).
    cbn [set_angles dem_file ortho_file out_prefix camera_list image_size
         no_images velocity horizontal_uncertainty jitter_frequency].
    apply String.eqb_neq in Hl. rewrite Hl, Hj.
    reflexivity.
Qed.

(** ** The jitter group *)

(** C2.  A command line that sets some but not all of the five jitter
    numbers is rejected with an [ArgumentErr]; when all five or none are
    set, the all-or-none check is not the one that rejects. *)
Theorem jitter_group_all_or_none (opt : SatSimOptions) :
  (0 < jitter_set opt < 5 -> rejected (validate opt [])) /\
  (jitter_set opt = 0 \/ jitter_set opt = 5 ->
   ~ rejected_with msg_jitter_group (validate opt [])).
Proof.
  split.
  - intros Hj. apply unvalidated_rejected. intros V.
    destruct (val_jitter_group opt V); lia.
  - intros Hj. unfold handle_arguments.
    repeat (va_step; try other_message).
    all: try (apply call_not_rejected; reflexivity).
    all: tests_to_props; destruct Hj; congruence.
Qed.

(** C3.  When any jitter number is set, validation requires all of roll,
    pitch and yaw: if one of them is unset, the command line is rejected
    with an [ArgumentErr]. *)
Theorem jitter_needs_roll_pitch_yaw (opt : SatSimOptions) :
  jitter_set opt <> 0 ->
  isnan (roll opt) = true \/ isnan (pitch opt) = true \/ isnan (yaw opt) = true ->
  rejected (validate opt []).
Proof.
  intros Hj Ha. apply have_roll_pitch_yaw_false in Ha.
  apply unvalidated_rejected. intros V.
  pose proof (val_jitter_angles opt V Hj) as Hh. congruence.
Qed.

(** C4 (amended).  Jitter depends on the fixed angles: for options with a
    jitter number set, a run without all of roll, pitch and yaw is rejected
    with an [ArgumentErr]; so whenever validation accepts such options, and
    whenever the run gets to computing the trajectory, roll, pitch and yaw
    are all set (and all five jitter numbers are). *)
Theorem jitter_only_with_fixed_angles (opt : SatSimOptions) :
  jitter_set opt <> 0 ->
  (have_roll_pitch_yaw opt = false -> rejected (run opt [])) /\
  (accepted (validate opt []) ->
   have_roll_pitch_yaw opt = true /\ jitter_set opt = 5) /\
  (forall n : Z,
     In (Call_calcTrajectory n) (fst (run opt [])) ->
     have_roll_pitch_yaw opt = true /\ jitter_set opt = 5).
Proof.
  intros Hj.
  assert (Hv : validated opt ->
               have_roll_pitch_yaw opt = true /\ jitter_set opt = 5).
  { intros V. split.
    - exact (val_jitter_angles opt V Hj).
    - destruct (val_jitter_group opt V) as [H0 | H5]; [destruct (Hj H0) | exact H5]. }
  split; [ | split ].
  - intros Ha.
    assert (Hr : rejected (validate opt [])).
    { apply unvalidated_rejected. intros V. destruct (Hv V). congruence. }
    rewrite (main_try_rejected opt Hr). exact Hr.
  - intros Hacc. exact (Hv (accepted_validated opt Hacc)).
  - intros n Hin. exact (Hv (main_try_calcTrajectory opt n Hin)).
Qed.

(** ** The camera count *)

(** C7.  Without a camera list, options that validation accepts have a
    camera count of at least 2, and a run with a smaller count is rejected
    with an [ArgumentErr] before any collaborator is called; the trajectory
    is only ever computed for at least 2 cameras. *)
Theorem num_cameras_at_least_two (opt : SatSimOptions) :
  camera_list opt = "" ->
  (accepted (validate opt []) -> 2 <= num_cameras opt) /\
  (num_cameras opt < 2 -> rejected (run opt [])) /\
  (forall n : Z, In (Call_calcTrajectory n) (fst (run opt [])) ->
     2 <= num_cameras opt).
Proof.
  intros Hl. split; [ | split ].
  - intros Hacc. exact (val_num opt (accepted_validated opt Hacc) Hl).
  - intros Hn.
    assert (Hr : rejected (validate opt [])).
    { apply unvalidated_rejected. intros V.
      pose proof (val_num opt V Hl). lia. }
    rewrite (main_try_rejected opt Hr). exact Hr.
  - intros n Hin. exact (val_num opt (main_try_calcTrajectory opt n Hin) Hl).
Qed.

(** ** The required options *)

(** C8.  A run whose options lack the DEM, the ortho image, the output
    prefix or the image size stops with an [ArgumentErr] at the first
    checks of [handle_arguments]: nothing has been written, no file has
    been read and no collaborator has been called. *)
Theorem required_options_checked_first (opt : SatSimOptions) :
  dem_file opt = "" \/ ortho_file opt = "" \/ out_prefix opt = "" \/
  isnan (v2_0 (image_size opt)) = true \/ isnan (v2_1 (image_size opt)) = true ->
  exists msg,
    In msg [msg_missing_input; msg_missing_prefix; msg_image_size] /\
    run opt [] = ([], inl (ArgumentErr msg)).
Proof.
  intros H.
  assert (Hv : exists msg,
             In msg [msg_missing_input; msg_missing_prefix; msg_image_size] /\
             validate opt [] = ([], inl (ArgumentErr msg))).
  { unfold handle_arguments.
    va_step; [ eexists; split; [ left; reflexivity | reflexivity ] | ].
    va_step; [ eexists; split; [ right; left; reflexivity | reflexivity ] | ].
    va_step; [ eexists; split; [ right; right; left; reflexivity | reflexivity ] | ].
    exfalso. tests_to_props.
    destruct H as [H | [H | [H | [H | H]]]]; congruence. }
  destruct Hv as [msg [Hin Hv]]. exists msg. split; [ exact Hin | ].
  rewrite main_try_rejected; [ exact Hv | ].
  exists msg. rewrite Hv. split; reflexivity.
Qed.

(** ** The camera positions *)

(** C9.  Without a camera list, a first or last position that equals the
    zero vector is rejected with an [ArgumentErr] before any processing;
    the position [0 0 0] is the very value an unspecified position has. *)
Theorem zero_position_rejected (opt : SatSimOptions) :
  camera_list opt = "" ->
  Vector3_eqb (first opt) (mkVector3 (of_Z 0) (of_Z 0) (of_Z 0)) = true \/
  Vector3_eqb (last opt) (mkVector3 (of_Z 0) (of_Z 0) (of_Z 0)) = true ->
  rejected (run opt []) /\
  first default_options = mkVector3 (of_Z 0) (of_Z 0) (of_Z 0) /\
  last default_options = mkVector3 (of_Z 0) (of_Z 0) (of_Z 0).
Proof.
  intros Hl Hz. split; [ | split; reflexivity ].
  assert (Hr : rejected (validate opt [])).
  { apply unvalidated_rejected. intros V.
    destruct (val_positions opt V Hl) as [Hf Hb].
    change (mkVector3 (of_Z 0) (of_Z 0) (of_Z 0)) with Vector3_default in Hz.
    destruct Hz; congruence. }
  rewrite (main_try_rejected opt Hr). exact Hr.
Qed.

(** ** The jitter numbers *)

(** C10.  When the five jitter numbers are set, validation rejects with an
    [ArgumentErr] a velocity or a jitter frequency that is not above zero
    and a horizontal uncertainty with a component below zero, so accepted
    options have a positive velocity and frequency and non-negative
    uncertainties; when none of the five is set (all NaN), none of these
    three checks rejects. *)
Theorem jitter_numbers_checked (opt : SatSimOptions) :
  (jitter_set opt = 5 ->
   leb (velocity opt) zero = true \/
   leb (jitter_frequency opt) zero = true \/
   ltb (v3_0 (horizontal_uncertainty opt)) zero = true \/
   ltb (v3_1 (horizontal_uncertainty opt)) zero = true \/
   ltb (v3_2 (horizontal_uncertainty opt)) zero = true ->
   rejected (validate opt [])) /\
  (jitter_set opt = 5 ->
   accepted (validate opt []) ->
   ltb zero (velocity opt) = true /\
   ltb zero (jitter_frequency opt) = true /\
   leb zero (v3_0 (horizontal_uncertainty opt)) = true /\
   leb zero (v3_1 (horizontal_uncertainty opt)) = true /\
   leb zero (v3_2 (horizontal_uncertainty opt)) = true) /\
  (jitter_set opt = 0 ->
   ~ rejected_with msg_velocity (validate opt []) /\
   ~ rejected_with msg_uncertainty (validate opt []) /\
   ~ rejected_with msg_frequency (validate opt [])).
Proof.
  split; [ | split ].
  - intros _ Hbad. apply unvalidated_rejected. intros V.
    pose proof (val_velocity opt V) as Hv.
    pose proof (val_frequency opt V) as Hf.
    destruct (val_uncertainty opt V) as (H0 & H1 & H2).
    destruct Hbad as [H | [H | [H | [H | H]]]]; congruence.
  - intros Hj Hacc. pose proof (accepted_validated opt Hacc) as V.
    apply jitter_set_all in Hj. destruct Hj as (Nf & Nv & N0 & N1 & N2).
    destruct (val_uncertainty opt V) as (H0 & H1 & H2).
    repeat split.
    + exact (not_leb_zero _ Nv (val_velocity opt V)).
    + exact (not_leb_zero _ Nf (val_frequency opt V)).
    + exact (not_ltb_zero _ N0 H0).
    + exact (not_ltb_zero _ N1 H1).
    + exact (not_ltb_zero _ N2 H2).
  - intros Hj. apply jitter_set_none in Hj.
    destruct Hj as (Nf & Nv & N0 & N1 & N2).
    pose proof (leb_nan_l _ zero Nv) as Hv.
    pose proof (leb_nan_l _ zero Nf) as Hf.
    pose proof (ltb_nan_l _ zero N0) as H0.
    pose proof (ltb_nan_l _ zero N1) as H1.
    pose proof (ltb_nan_l _ zero N2) as H2.
    unfold handle_arguments.
    repeat (va_step; try solve [repeat split; other_message]).
    all: try solve [repeat split; apply call_not_rejected; reflexivity].
    all: exfalso;
      match goal with
      | H : true = false |- _ => discriminate H
      | H : _ || _ || _ = true |- _ => rewrite H0, H1, H2 in H; discriminate H
      end.
Qed.

End Run.

(** ** The CSM camera wrapper *)

(** C5.  For every model and every pixel, [camera_pose] of the CSM wrapper
    throws [NoImplErr]; it never returns a pose. *)
Theorem camera_pose_not_implemented (RasterGM Quaternion : Type)
    (q0 : Quaternion) (m : CsmModel.t RasterGM) (pix : Vector2)
    (t : list event) :
  CsmModel.camera_pose q0 m pix t =
    (t, inl (NoImplErr "CsmModel: Cannot retrieve camera_pose!")) /\
  (forall q : Quaternion, snd (CsmModel.camera_pose q0 m pix t) <> inr q).
Proof.
  split.
  - reflexivity.
  - intros q H. cbv [CsmModel.camera_pose bind vw_throw snd] in H.
    discriminate H.
Qed.

(** C6.  The default precision is the [double] nearest to 1e-8 and a
    constructed model starts with it; [setDesiredPrecision] stores any
    precision the caller gives, a looser one such as 1e-6 included, and
    leaves the loaded model and all other members as they are. *)
Theorem desired_precision_default_and_setter :
  (exists mant : positive,
     CsmModel.DEFAULT_CSM_DESIRED_PRECISISON = S754_finite false mant (-79) /\
     2 * Z.abs (Zpos mant * 10 ^ 8 - 2 ^ 79) <= 10 ^ 8) /\
  (forall (RasterGM : Type) (gm : option RasterGM) (major minor : double)
          (sun : Vector3),
     CsmModel.m_desired_precision (CsmModel.CsmModel gm major minor sun) =
       CsmModel.DEFAULT_CSM_DESIRED_PRECISISON) /\
  (forall (RasterGM : Type) (p : double) (m : CsmModel.t RasterGM),
     CsmModel.m_desired_precision (CsmModel.setDesiredPrecision p m) = p /\
     CsmModel.m_gm_model (CsmModel.setDesiredPrecision p m) =
       CsmModel.m_gm_model m /\
     CsmModel.m_semi_major_axis (CsmModel.setDesiredPrecision p m) =
       CsmModel.m_semi_major_axis m /\
     CsmModel.m_semi_minor_axis (CsmModel.setDesiredPrecision p m) =
       CsmModel.m_semi_minor_axis m /\
     CsmModel.m_sun_position (CsmModel.setDesiredPrecision p m) =
       CsmModel.m_sun_position m) /\
  ltb CsmModel.DEFAULT_CSM_DESIRED_PRECISISON (of_decimal 1 6) = true.
Proof.
  split; [ | split; [ | split ] ].
  - exists 6044629098073146%positive. split.
    + vm_compute. reflexivity.
    + vm_compute. intros H. discriminate H.
  - intros. reflexivity.
  - intros. repeat split.
  - vm_compute. reflexivity.
Qed.

(** ** The sample command lines, run *)

Example sample_options_run :
  sample_run sample_options =
  ([Call_create_out_dir "run/run"; Call_readGeorefImage "dem.tif";
    Call_readGeorefImage "ortho.tif"; Call_calcTrajectory 2;
    Call_genCameras; Call_genImages false], inr tt).
Proof. vm_compute. reflexivity. Qed.

Example sample_list_angles_run :
  sample_run sample_list_angles =
  ([Call_create_out_dir "run/run"; Call_readGeorefImage "dem.tif";
    Call_readGeorefImage "ortho.tif"; Call_readCameras;
    Call_genImages true], inr tt).
Proof. vm_compute. reflexivity. Qed.

Example sample_full_validated :
  handle_arguments (succeed tt) sample_full [] =
  ([Call_create_out_dir "run/run"], inr tt).
Proof. vm_compute. reflexivity. Qed.

Example sample_with_jitter_run :
  sample_run sample_with_jitter =
  ([], inl (ArgumentErr msg_jitter_needs_angles)).
Proof. vm_compute. reflexivity. Qed.

Example sample_only_frequency_run :
  sample_run sample_only_frequency = ([], inl (ArgumentErr msg_jitter_group)).
Proof. vm_compute. reflexivity. Qed.

Example sample_negative_velocity_run :
  sample_run sample_negative_velocity = ([], inl (ArgumentErr msg_velocity)).
Proof. vm_compute. reflexivity. Qed.

Example sample_one_camera_run :
  sample_run sample_one_camera = ([], inl (ArgumentErr msg_num_cameras)).
Proof. vm_compute. reflexivity. Qed.

Example sample_zero_first_run :
  sample_run sample_zero_first = ([], inl (ArgumentErr msg_first_last)).
Proof. vm_compute. reflexivity. Qed.

(** ** The theorems at the sample command lines *)

(** With a camera list and no jitter, the angles change nothing; with a
    camera list and jitter, the command line is rejected. *)
Lemma camera_list_ignores_angles_witness :
  camera_list sample_with_list <> "" /\
  handle_arguments (succeed tt) sample_list_angles [] =
    handle_arguments (succeed tt) sample_with_list [].
Proof.
  assert (Hl : camera_list sample_with_list <> "").
  { vm_compute. intros H. discriminate H. }
  split; [ exact Hl | ].
  apply (proj2 (camera_list_ignores_angles (succeed tt) sample_with_list Hl)).
  vm_compute. reflexivity.
Defined.

Lemma jitter_group_all_or_none_witness :
  rejected (handle_arguments (succeed tt) sample_only_frequency []) /\
  ~ rejected_with msg_jitter_group
      (handle_arguments (succeed tt) sample_full []).
Proof.
  split.
  - apply (proj1 (jitter_group_all_or_none (succeed tt) sample_only_frequency)).
    vm_compute. split; reflexivity.
  - apply (proj2 (jitter_group_all_or_none (succeed tt) sample_full)).
    right. vm_compute. reflexivity.
Defined.

Lemma jitter_needs_roll_pitch_yaw_witness :
  jitter_set sample_with_jitter <> 0 /\
  isnan (roll sample_with_jitter) = true /\
  rejected (handle_arguments (succeed tt) sample_with_jitter []).
Proof.
  assert (Hj : jitter_set sample_with_jitter <> 0).
  { vm_compute. intros H. discriminate H. }
  split; [ exact Hj | split; [ reflexivity | ] ].
  apply (jitter_needs_roll_pitch_yaw (succeed tt) sample_with_jitter Hj).
  left. reflexivity.
Defined.

Lemma jitter_only_with_fixed_angles_witness :
  jitter_set sample_full <> 0 /\
  have_roll_pitch_yaw sample_full = true /\ jitter_set sample_full = 5.
Proof.
  assert (Hj : jitter_set sample_full <> 0).
  { vm_compute. intros H. discriminate H. }
  split; [ exact Hj | ].
  apply (proj1 (proj2
    (jitter_only_with_fixed_angles unit unit unit
       (succeed tt) (succeed tt) (succeed tt)
       (fun _ _ _ => inr tt) (fun _ _ => inr tt) (fun _ _ _ _ _ => inr tt)
       sample_full Hj))).
  vm_compute. reflexivity.
Defined.

Lemma num_cameras_at_least_two_witness :
  camera_list sample_one_camera = "" /\
  num_cameras sample_one_camera < 2 /\
  rejected (sample_run sample_one_camera).
Proof.
  split; [ reflexivity | split; [ vm_compute; reflexivity | ] ].
  apply (proj1 (proj2
    (num_cameras_at_least_two unit unit unit
       (succeed tt) (succeed tt) (succeed tt)
       (fun _ _ _ => inr tt) (fun _ _ => inr tt) (fun _ _ _ _ _ => inr tt)
       sample_one_camera eq_refl))).
  vm_compute. reflexivity.
Defined.

Lemma required_options_checked_first_witness :
  dem_file default_options = "" /\
  exists msg,
    In msg [msg_missing_input; msg_missing_prefix; msg_image_size] /\
    sample_run default_options = ([], inl (ArgumentErr msg)).
Proof.
  split; [ reflexivity | ].
  apply (required_options_checked_first unit unit unit
           (succeed tt) (succeed tt) (succeed tt)
           (fun _ _ _ => inr tt) (fun _ _ => inr tt) (fun _ _ _ _ _ => inr tt)
           default_options).
  left. reflexivity.
Defined.

Lemma zero_position_rejected_witness :
  camera_list sample_zero_first = "" /\
  rejected (sample_run sample_zero_first).
Proof.
  split; [ reflexivity | ].
  apply (zero_position_rejected unit unit unit
           (succeed tt) (succeed tt) (succeed tt)
           (fun _ _ _ => inr tt) (fun _ _ => inr tt) (fun _ _ _ _ _ => inr tt)
           sample_zero_first eq_refl).
  left. vm_compute. reflexivity.
Defined.

Lemma jitter_numbers_checked_witness :
  rejected (handle_arguments (succeed tt) sample_negative_velocity []) /\
  ltb zero (velocity sample_full) = true /\
  ~ rejected_with msg_velocity (handle_arguments (succeed tt) sample_options []).
Proof.
  split; [ | split ].
  - apply (proj1 (jitter_numbers_checked (succeed tt) sample_negative_velocity)).
    + vm_compute. reflexivity.
    + left. vm_compute. reflexivity.
  - apply (proj1 (proj2 (jitter_numbers_checked (succeed tt) sample_full))).
    + vm_compute. reflexivity.
    + vm_compute. reflexivity.
  - refine (proj1 (proj2 (proj2
             (jitter_numbers_checked (succeed tt) sample_options)) _)).
    vm_compute. reflexivity.
Defined.

(** ** Where the code departs from the claims *)

(** C1 as stated fails: a command line with a camera list and all three
    angles passes validation, and the whole run goes through. *)
Lemma camera_list_with_angles_accepted :
  handle_arguments (succeed tt) sample_list_angles [] =
    ([Call_create_out_dir "run/run"], inr tt) /\
  ~ (forall (create_out_dir : string -> exception + unit)
            (opt : SatSimOptions),
       camera_list opt <> "" ->
       isnan (roll opt) = false \/ isnan (pitch opt) = false \/
       isnan (yaw opt) = false ->
       rejected (handle_arguments create_out_dir opt [])).
Proof.
  split.
  - vm_compute. reflexivity.
  - intros H.
    destruct (H (succeed tt) sample_list_angles) as [msg [Hm _]].
    + vm_compute. intros E. discriminate E.
    + left. vm_compute. reflexivity.
    + vm_compute in Hm. discriminate Hm.
Qed.

(** C4 as stated fails: the sample command line is valid, and with the
    jitter group added and no fixed angles it is rejected; no options with
    the jitter group set and the three angles unset are ever accepted. *)
Lemma jitter_without_angles_rejected :
  jitter_set sample_with_jitter = 5 /\
  angles_unset sample_with_jitter = 3 /\
  accepted (handle_arguments (succeed tt) sample_options []) /\
  handle_arguments (succeed tt) sample_with_jitter [] =
    ([], inl (ArgumentErr msg_jitter_needs_angles)) /\
  ~ (exists (create_out_dir : string -> exception + unit)
            (opt : SatSimOptions),
       jitter_set opt = 5 /\ angles_unset opt = 3 /\
       accepted (handle_arguments create_out_dir opt [])).
Proof.
  split; [ vm_compute; reflexivity | ].
  split; [ vm_compute; reflexivity | ].
  split; [ vm_compute; reflexivity | ].
  split; [ vm_compute; reflexivity | ].
  intros (c & opt & Hj & Ha & Hacc).
  pose proof (accepted_validated c opt Hacc) as V.
  assert (Hn : jitter_set opt <> 0) by (rewrite Hj; discriminate).
  pose proof (val_jitter_angles opt V Hn) as Hh.
  revert Ha Hh. unfold angles_unset, have_roll_pitch_yaw.
  destruct (isnan (roll opt)), (isnan (pitch opt)), (isnan (yaw opt));
    simpl; intros; try discriminate; lia.
Qed.

(** * More of the code: what validation decides, and the course of a run *)

(** ** Rounding never gives a NaN *)

Lemma shr_1_nonneg (mrs : shr_record) : 0 <= shr_m mrs -> 0 <= shr_m (shr_1 mrs).
Proof.
  destruct mrs as [m r s]. simpl.
  destruct m as [ | p | p ]; [ | destruct p | ]; simpl; lia.
Qed.

Lemma iter_shr_1_nonneg (p : positive) :
  forall mrs, 0 <= shr_m mrs -> 0 <= shr_m (iter_pos shr_1 p mrs).
Proof.
  induction p as [p IH | p IH | ]; intros mrs H; simpl.
  - apply IH, IH, shr_1_nonneg, H.
  - apply IH, IH, H.
  - apply shr_1_nonneg, H.
Qed.

Lemma shr_fexp_nonneg (m e : Z) (l : location) :
  0 <= m -> 0 <= shr_m (fst (shr_fexp prec emax m e l)).
Proof.
  intros H. unfold shr_fexp, shr.
  assert (H0 : 0 <= shr_m (shr_record_of_loc m l)).
  { destruct l as [ | [ | | ] ]; exact H. }
  destruct (fexp prec emax (Zdigits2 m + e) - e) as [ | p | p ]; simpl;
    try exact H0.
  apply iter_shr_1_nonneg, H0.
Qed.

Lemma round_nearest_even_nonneg (m : Z) (l : location) :
  0 <= m -> 0 <= round_nearest_even m l.
Proof.
  intros H. destruct l as [ | [ | | ] ]; simpl; try lia.
  destruct (Z.even m); lia.
Qed.

Lemma binary_round_aux_signed (s : bool) (m e : Z) (l : location) :
  0 <= m -> signed s (binary_round_aux prec emax s m e l).
Proof.
  intros H. unfold binary_round_aux.
  pose proof (shr_fexp_nonneg m e l H) as H1.
  destruct (shr_fexp prec emax m e l) as [mrs' e'] eqn:E1. simpl in H1.
  pose proof (shr_fexp_nonneg _ e' loc_Exact
                (round_nearest_even_nonneg _ (loc_of_shr_record mrs') H1)) as H2.
  destruct (shr_fexp prec emax
              (round_nearest_even (shr_m mrs') (loc_of_shr_record mrs')) e'
              loc_Exact) as [mrs'' e''] eqn:E2.
  simpl in H2. unfold signed.
  destruct (shr_m mrs'') as [ | p | p ].
  - left. reflexivity.
  - destruct (e'' <=? emax - prec)%Z.
    + right. right. eauto.
    + right. left. reflexivity.
  - lia.
Qed.

Lemma signed_not_nan (s : bool) (x : double) : signed s x -> isnan x = false.
Proof.
  intros [H | [H | [m [e H]]]]; rewrite H; reflexivity.
Qed.

Lemma mul_self_signed (x : double) : isnan x = false -> signed false (mul x x).
Proof.
  destruct x as [s | s | | s m e]; intros H; try discriminate H.
  - left. destruct s; reflexivity.
  - right. left. destruct s; reflexivity.
  - unfold mul, SFmul. replace (xorb s s) with false by (destruct s; reflexivity).
    apply binary_round_aux_signed. lia.
Qed.

Lemma add_signed (x y : double) :
  signed false x -> signed false y -> signed false (add x y).
Proof.
  intros [Hx | [Hx | [mx [ex Hx]]]] [Hy | [Hy | [my [ey Hy]]]]; subst x y;
    try (left; reflexivity); try (right; left; reflexivity);
    try (right; right; eexists; eexists; reflexivity).
  unfold add, SFadd, cond_Zopp, binary_normalize.
  destruct (shl_align mx ex (Z.min ex ey)) as [px qx].
  destruct (shl_align my ey (Z.min ex ey)) as [py qy].
  cbn [fst Z.add]. unfold binary_round.
  destruct (shl_align (px + py) (Z.min ex ey)
              (fexp prec emax (Z.pos (digits2_pos (px + py)) + Z.min ex ey)))
    as [mz ez].
  apply binary_round_aux_signed. lia.
Qed.

Lemma sqrt_signed (x : double) : signed false x -> signed false (sqrt x).
Proof.
  intros [Hx | [Hx | [m [e Hx]]]]; subst x.
  - left. reflexivity.
  - right. left. reflexivity.
  - unfold sqrt, SFsqrt, SFsqrt_core_binary.
    match goal with
    | |- context [Z.sqrtrem ?a] =>
        pose proof (Z.sqrtrem_sqrt a) as Hq; pose proof (Z.sqrt_nonneg a) as Hn;
        destruct (Z.sqrtrem a) as [q r]
    end.
    cbn [fst] in Hq. subst q.
    apply binary_round_aux_signed. exact Hn.
Qed.

(** The norm is NaN exactly when a component is. *)
Lemma isnan_norm_2 (v : Vector2) :
  isnan (norm_2 v) = isnan (v2_0 v) || isnan (v2_1 v).
Proof.
  destruct v as [a b]. unfold norm_2. cbn [v2_0 v2_1].
  destruct (isnan a) eqn:Ha.
  - destruct a; try discriminate Ha. reflexivity.
  - destruct (isnan b) eqn:Hb.
    + destruct b; try discriminate Hb.
      cbn [orb mul SFmul]. unfold add at 1.
      destruct (add zero (mul a a)); reflexivity.
    + cbn [orb]. apply (signed_not_nan false).
      apply sqrt_signed, add_signed.
      * apply add_signed; [ left; reflexivity | apply mul_self_signed, Ha ].
      * apply mul_self_signed, Hb.
Qed.

(** ** The checks, walked through once more *)

Ltac failed_test_to_props :=
  repeat match goal with
    | H : _ || _ = true |- _ => apply orb_true_iff in H; destruct H
    | H : _ && _ = true |- _ => apply andb_true_iff in H; destruct H
    | H : negb _ = true |- _ => apply negb_true_iff in H
    | H : (_ =? _)%string = true |- _ => apply String.eqb_eq in H
    | H : (_ =? _)%string = false |- _ => apply String.eqb_neq in H
    | H : (_ <? _)%Z = true |- _ => apply Z.ltb_lt in H
    | H : (_ =? _)%Z = false |- _ => apply Z.eqb_neq in H
    | H : Bool.eqb _ _ = false |- _ => apply Bool.eqb_false_iff in H
    end.


Ltac clash :=
  match goal with
  | H1 : ?x = true, H2 : ?x = false |- _ => rewrite H1 in H2; discriminate H2
  | H1 : ?x = ?y, H2 : ?x <> ?y |- _ => exact (H2 H1)
  end.

Ltac refute_validated :=
  let V := fresh "V" in
  intros V; failed_test_to_props;
  destruct V as [[? ?] ? [? ?] Vli Vpos Vnum Vintr Vgp Vang Vjg Vja Vjl
                 ? [? [? ?]] ?];
  first
    [ clash
    | solve [ pose proof (Vli ltac:(assumption)); clash ]
    | solve [ destruct (Vpos ltac:(assumption)); clash ]
    | solve [ pose proof (Vnum ltac:(assumption)); lia ]
    | solve [ destruct (Vintr ltac:(assumption)) as (? & ? & ?); clash ]
    | solve [ pose proof (Vgp ltac:(assumption)); clash ]
    | solve [ destruct (Vang ltac:(assumption)); clash ]
    | solve [ destruct Vjg; clash ]
    | solve [ pose proof (Vja ltac:(assumption)); clash ]
    | solve [ pose proof (Vjl ltac:(assumption)); clash ] ].

(** Like [va_step], but the warning is kept as one trace, not split on. *)
Ltac va_walk :=
  cbv zeta beta;
  first
    [ rewrite bind_check;
      match goal with
      | |- context [if ?b then (_, inl _) else _] => destruct b eqn:?
      end
    | rewrite bind_warn
    | rewrite bind_when;
      match goal with
      | |- context [if ?b then bind _ _ _ else _] => destruct b eqn:?
      end
    | rewrite bind_assoc ];
  cbv beta.

Section Course.

Variables GeorefImage Trajectory Cameras : Type.
Variable create_out_dir : string -> exception + unit.
Variable readGeorefImage : string -> exception + GeorefImage.
Variable readCameras : SatSimOptions -> exception + Cameras.
Variable calcTrajectory :
  SatSimOptions -> GeorefImage -> Z -> exception + Trajectory.
Variable genCameras : SatSimOptions -> Trajectory -> exception + Cameras.
Variable genImages :
  SatSimOptions -> bool -> Cameras -> GeorefImage -> GeorefImage ->
  exception + unit.

Local Abbreviation validate := (handle_arguments create_out_dir).
Local Abbreviation run :=
  (main_try create_out_dir readGeorefImage readCameras calcTrajectory
     genCameras genImages).

Lemma heights_warning_list (opt : SatSimOptions) :
  (camera_list opt =? "")%string = false -> heights_warning opt = [].
Proof. intros H. unfold heights_warning. rewrite H. reflexivity. Qed.

Lemma heights_warning_generated (opt : SatSimOptions) :
  (camera_list opt =? "")%string = true ->
  heights_warning opt =
    if neqb (v3_2 (first opt)) (v3_2 (last opt))
    then ([] ++ [Printed msg_heights])%list else [].
Proof. intros H. unfold heights_warning. rewrite H. reflexivity. Qed.

Lemma handle_arguments_exact (opt : SatSimOptions) :
  (~ validated opt /\
   exists msg,
     validate opt [] = ([], inl (ArgumentErr msg)) \/
     validate opt [] = (heights_warning opt, inl (ArgumentErr msg))) \/
  (validated opt /\
   validate opt [] =
     ((heights_warning opt ++ [Call_create_out_dir (out_prefix opt)])%list,
      create_out_dir (out_prefix opt))).
Proof.
  unfold handle_arguments.
  repeat (va_walk;
          try solve
            [ left; split;
              [ refute_validated
              | eexists; first
                  [ left; reflexivity
                  | right; rewrite heights_warning_generated by assumption;
                    reflexivity ] ] ]).
  - right. split.
    + tests_to_props;
        constructor; intros; repeat split; auto; try congruence; try lia.
    + unfold call. rewrite heights_warning_generated by assumption.
      reflexivity.
  - right. split.
    + tests_to_props;
        constructor; intros; repeat split; auto; try congruence; try lia.
    + unfold call. rewrite heights_warning_list by assumption.
      reflexivity.
Qed.


Lemma handle_arguments_reaches (opt : SatSimOptions) :
  validated opt ->
  validate opt [] =
    ((heights_warning opt ++ [Call_create_out_dir (out_prefix opt)])%list,
     create_out_dir (out_prefix opt)).
Proof.
  intros V. destruct (handle_arguments_exact opt) as [[Hn _] | [_ H]].
  - destruct (Hn V).
  - exact H.
Qed.

(** X1.  [handle_arguments] returns normally exactly for the validated
    options for which [create_out_dir] succeeds on the output prefix. *)
Theorem handle_arguments_accepts_iff (opt : SatSimOptions) :
  accepted (validate opt []) <->
  validated opt /\ create_out_dir (out_prefix opt) = inr tt.
Proof.
  destruct (handle_arguments_exact opt) as [[Hn [msg [H | H]]] | [V H]];
    rewrite H; unfold accepted; cbn [snd]; split.
  1, 3: intros E; discriminate E.
  1, 2: intros [V _]; destruct (Hn V).
  - intros E. split; assumption.
  - intros [_ E]. exact E.
Qed.

(** X2.  [handle_arguments] stops at a check, with an [ArgumentErr] and
    without having called [create_out_dir], exactly for the options that
    are not validated; whether it does so does not depend on
    [create_out_dir]. *)
Theorem handle_arguments_rejects_iff (opt : SatSimOptions) :
  (rejected (validate opt []) <-> ~ validated opt) /\
  (forall p : string,
     In (Call_create_out_dir p) (fst (validate opt [])) ->
     validated opt /\ p = out_prefix opt).
Proof.
  destruct (handle_arguments_exact opt) as [[Hn [msg [H | H]]] | [V H]];
    rewrite H; cbn [fst]; (split; [ split | ]).
  - intros _. exact Hn.
  - intros _. exists msg. split; reflexivity.
  - intros p [].
  - intros _. exact Hn.
  - intros _. exists msg. split; [ reflexivity | ].
    cbn [fst]. unfold heights_warning.
    destruct (_ && _); reflexivity.
  - intros p Hin. unfold heights_warning in Hin.
    destruct (_ && _); cbn in Hin; [ destruct Hin as [E | []]; discriminate E
                                   | destruct Hin ].
  - intros [m [_ Hp]]. cbn [fst] in Hp. rewrite forallb_app in Hp.
    cbn in Hp. rewrite andb_false_r in Hp. discriminate Hp.
  - intros Hn. destruct (Hn V).
  - intros p Hin. split; [ exact V | ].
    apply in_app_or in Hin. destruct Hin as [Hin | [E | []]].
    + unfold heights_warning in Hin.
      destruct (_ && _); cbn in Hin;
        [ destruct Hin as [E | []]; discriminate E | destruct Hin ].
    + injection E as E. symmetry. exact E.
Qed.

(** X3.  For validated options [handle_arguments] writes the warning about
    the heights exactly when the cameras are generated and the heights of
    the first and last position are not equal, then calls [create_out_dir]
    on the output prefix, whose outcome is its own: the warning never
    makes it fail. *)
Theorem handle_arguments_validated (opt : SatSimOptions) :
  validated opt ->
  validate opt [] =
    ((heights_warning opt ++ [Call_create_out_dir (out_prefix opt)])%list,
     create_out_dir (out_prefix opt)).
Proof.
  exact (handle_arguments_reaches opt).
Qed.

(** Options that are not validated end the run before it starts. *)
Lemma run_unvalidated (opt : SatSimOptions) :
  ~ validated opt -> rejected (run opt []).
Proof.
  intros Hn.
  pose proof (unvalidated_rejected create_out_dir opt Hn) as Hr.
  rewrite main_try_rejected by exact Hr. exact Hr.
Qed.

(** ** The checks the claims do not speak of *)

(** X4.  A camera list together with [--no-images] leaves nothing to do:
    the run is rejected with an [ArgumentErr]. *)
Theorem camera_list_excludes_no_images (opt : SatSimOptions) :
  camera_list opt <> "" -> no_images opt = true -> rejected (run opt []).
Proof.
  intros Hl Hn. apply run_unvalidated. intros V.
  pose proof (val_list_images opt V Hl) as H. congruence.
Qed.

(** X5.  When the cameras are generated, roll, pitch and yaw go together:
    a run with one or two of them set is rejected with an [ArgumentErr]. *)
Theorem angles_all_or_none (opt : SatSimOptions) :
  camera_list opt = "" -> 0 < angles_unset opt < 3 -> rejected (run opt []).
Proof.
  intros Hl Ha. apply run_unvalidated. intros V.
  destruct (val_angles opt V Hl); lia.
Qed.

(** X6.  When the cameras are generated, the two ground positions go
    together, and one with a NaN component counts as not given: the run is
    rejected with an [ArgumentErr] when exactly one of the two has a NaN
    component, and options that pass have both or neither. *)
Theorem ground_positions_both_or_neither (opt : SatSimOptions) :
  camera_list opt = "" ->
  (Vector2_has_nan (first_ground_pos opt) <>
     Vector2_has_nan (last_ground_pos opt) ->
   rejected (run opt [])) /\
  (accepted (validate opt []) ->
   Vector2_has_nan (first_ground_pos opt) =
     Vector2_has_nan (last_ground_pos opt)).
Proof.
  intros Hl. unfold Vector2_has_nan. rewrite <- !isnan_norm_2. split.
  - intros Hd. apply run_unvalidated. intros V.
    exact (Hd (val_ground_pos opt V Hl)).
  - intros Ha.
    exact (val_ground_pos opt (accepted_validated create_out_dir opt Ha) Hl).
Qed.

(** X7.  With a camera list, validation does not look at the options that
    describe the cameras to generate: first and last position, count,
    ground positions, focal length and optical center. *)
Theorem camera_list_ignores_generation (opt : SatSimOptions) :
  camera_list opt <> "" ->
  forall (f l : Vector3) (n : Z) (fg lg : Vector2) (focal : double)
         (center : Vector2) (t : list event),
    validate (set_generation f l n fg lg focal center opt) t = validate opt t.
Proof.
  intros Hl f l n fg lg focal center t.
  apply String.eqb_neq in Hl.
  unfold handle_arguments, jitter_set, have_roll_pitch_yaw.
  cbn [set_generation dem_file ortho_file out_prefix camera_list image_size
       no_images roll pitch yaw velocity horizontal_uncertainty
       jitter_frequency].
  rewrite Hl. reflexivity.
Qed.


(** ** The course of [main] *)

Lemma bind_call {A B : Type} (ev : event) (o : exception + A)
    (k : A -> M B) t :
  bind (call ev o) k t =
    match o with
    | inl e => ((t ++ [ev])%list, inl e)
    | inr a => k a (t ++ [ev])%list
    end.
Proof.
  unfold bind, call. destruct o; reflexivity.
Qed.

Lemma bind_ret {A B : Type} (a : A) (k : A -> M B) t :
  bind (ret a) k t = k a t.
Proof. reflexivity. Qed.

Lemma bind_known {A B : Type} (m : M A) (k : A -> M B) t t' r :
  m t = (t', r) ->
  bind m k t = match r with inl e => (t', inl e) | inr a => k a t' end.
Proof.
  intros H. unfold bind. rewrite H. destruct r; reflexivity.
Qed.

(** What [main] does once [handle_arguments] has returned. *)
Lemma main_try_validated (opt : SatSimOptions) :
  validated opt ->
  run opt [] =
    match create_out_dir (out_prefix opt) with
    | inl e =>
        ((heights_warning opt ++ [Call_create_out_dir (out_prefix opt)])%list,
         inl e)
    | inr _ =>
        (dem <- call (Call_readGeorefImage (dem_file opt))
                     (readGeorefImage (dem_file opt)) ;;
         ortho <- call (Call_readGeorefImage (ortho_file opt))
                       (readGeorefImage (ortho_file opt)) ;;
         ec <- (if negb (camera_list opt =? "")%string
                then
                  cams <- call Call_readCameras (readCameras opt) ;;
                  ret (true, cams)
                else
                  traj <- call (Call_calcTrajectory (num_cameras opt))
                               (calcTrajectory opt dem (num_cameras opt)) ;;
                  cams <- call Call_genCameras (genCameras opt traj) ;;
                  ret (false, cams)) ;;
         when (negb (no_images opt))
           (call (Call_genImages (fst ec))
                 (genImages opt (fst ec) (snd ec) dem ortho)))
          (heights_warning opt ++ [Call_create_out_dir (out_prefix opt)])%list
    end.
Proof.
  intros V. unfold main_try.
  rewrite (bind_known _ _ _ _ _ (handle_arguments_reaches opt V)).
  destruct (create_out_dir (out_prefix opt)); reflexivity.
Qed.

(** One call of [main]: split on what the collaborator returns. *)
Ltac run_step :=
  first
    [ rewrite bind_call;
      match goal with
      | |- context [match ?o with inl _ => _ | inr _ => _ end] =>
          destruct o eqn:?
      end
    | rewrite bind_ret
    | rewrite bind_assoc ];
  cbv beta.

Lemma run_prefix_of_script (opt : SatSimOptions) :
  exists rest : list event, script opt = (fst (run opt []) ++ rest)%list.
Proof.
  destruct (handle_arguments_exact opt) as [[Hn [msg [H | H]]] | [V _]].
  - unfold main_try. rewrite (bind_known _ _ _ _ _ H). cbn [fst app].
    eexists. reflexivity.
  - unfold main_try. rewrite (bind_known _ _ _ _ _ H). cbn [fst].
    unfold script. eexists. reflexivity.
  - rewrite (main_try_validated opt V). unfold script.
    destruct (create_out_dir (out_prefix opt)) as [e | u].
    { cbn [fst]. eexists. rewrite <- app_assoc. cbn [app]. reflexivity. }
    destruct (camera_list opt =? "")%string; cbn [negb];
      repeat run_step;
      try (unfold when; destruct (no_images opt); cbn [negb];
           unfold ret, call);
      cbn [fst]; eexists; rewrite <- ?app_assoc; cbn [app];
      reflexivity.
Qed.

(** X9.  Whatever the collaborators do, the calls of a run are a beginning
    of the same fixed sequence: the warning, the output directory, the DEM,
    the ortho image, the cameras (read, or trajectory then generation),
    the images. *)
Theorem run_follows_script (opt : SatSimOptions) :
  exists rest : list event, script opt = (fst (run opt []) ++ rest)%list.
Proof.
  exact (run_prefix_of_script opt).
Qed.


(** X12.  The first collaborator that fails ends the run with its
    exception: when the output directory cannot be created no file is
    read, when the DEM cannot be read the ortho image is not, and when the
    ortho image cannot be read no camera is read or generated. *)
Theorem early_failure_stops_run (opt : SatSimOptions) (e : exception) :
  validated opt ->
  (create_out_dir (out_prefix opt) = inl e ->
   run opt [] =
     ((heights_warning opt ++ [Call_create_out_dir (out_prefix opt)])%list,
      inl e)) /\
  (create_out_dir (out_prefix opt) = inr tt ->
   readGeorefImage (dem_file opt) = inl e ->
   run opt [] =
     ((heights_warning opt ++
       [Call_create_out_dir (out_prefix opt);
        Call_readGeorefImage (dem_file opt)])%list,
      inl e)) /\
  (create_out_dir (out_prefix opt) = inr tt ->
   (exists dem, readGeorefImage (dem_file opt) = inr dem) ->
   readGeorefImage (ortho_file opt) = inl e ->
   run opt [] =
     ((heights_warning opt ++
       [Call_create_out_dir (out_prefix opt);
        Call_readGeorefImage (dem_file opt);
        Call_readGeorefImage (ortho_file opt)])%list,
      inl e)).
Proof.
  intros V. rewrite (main_try_validated opt V). split; [ | split ].
  - intros Hc. rewrite Hc. reflexivity.
  - intros Hc Hd. rewrite Hc, bind_call, Hd, <- app_assoc. reflexivity.
  - intros Hc [dem Hd] Ho.
    rewrite Hc, bind_call, Hd, bind_call, Ho, <- !app_assoc. reflexivity.
Qed.

(** A call in the trace of a run shows that the options were validated. *)
Lemma run_call_validated (opt : SatSimOptions) (ev : event) :
  In ev (fst (run opt [])) -> is_print ev = false -> validated opt.
Proof.
  intros Hin Hp.
  destruct (handle_arguments_cases create_out_dir opt) as [Hr | [V _]].
  - rewrite main_try_rejected in Hin by exact Hr.
    destruct Hr as [msg [_ Hall]].
    pose proof (printed_only_no_call _ _ Hall Hin) as Hc. congruence.
  - exact V.
Qed.

(** The events of the script, one by one. *)
Lemma in_script (opt : SatSimOptions) (ev : event) :
  In ev (script opt) ->
  ev = Printed msg_heights \/
  ev = Call_create_out_dir (out_prefix opt) \/
  ev = Call_readGeorefImage (dem_file opt) \/
  ev = Call_readGeorefImage (ortho_file opt) \/
  (ev = Call_readCameras /\ camera_list opt <> "") \/
  (ev = Call_calcTrajectory (num_cameras opt) /\ camera_list opt = "") \/
  (ev = Call_genCameras /\ camera_list opt = "") \/
  (ev = Call_genImages (negb (camera_list opt =? "")%string) /\
   no_images opt = false).
Proof.
  unfold script, heights_warning. intros H.
  apply in_app_or in H. destruct H as [H | H].
  { destruct (_ && _); cbn in H; [ | destruct H ].
    destruct H as [H | []]. left. symmetry. exact H. }
  apply in_app_or in H. destruct H as [H | H].
  { cbn in H. destruct H as [H | [H | [H | []]]]; symmetry in H; tauto. }
  apply in_app_or in H. destruct H as [H | H].
  - destruct (camera_list opt =? "")%string eqn:El; cbn in H.
    + apply String.eqb_eq in El.
      destruct H as [H | [H | []]]; symmetry in H; tauto.
    + apply String.eqb_neq in El.
      destruct H as [H | []]; symmetry in H; tauto.
  - destruct (no_images opt); cbn in H; [ destruct H | ].
    destruct H as [H | []]. symmetry in H. tauto.
Qed.

Lemma run_trace_in_script (opt : SatSimOptions) (ev : event) :
  In ev (fst (run opt [])) -> In ev (script opt).
Proof.
  intros H. destruct (run_prefix_of_script opt) as [rest E].
  rewrite E. apply in_or_app. left. exact H.
Qed.

(** X11.  The two sources of cameras exclude each other, in every run:
    cameras are read only with a camera list, and then images are wanted;
    the trajectory is computed and cameras are generated only without one,
    for the given count of at least 2; and [genImages] is called only when
    images are wanted, with [external_cameras] telling a camera list. *)
Theorem camera_source_exclusive (opt : SatSimOptions) :
  (In Call_readCameras (fst (run opt [])) ->
   camera_list opt <> "" /\ no_images opt = false) /\
  (forall n : Z,
     In (Call_calcTrajectory n) (fst (run opt [])) ->
     camera_list opt = "" /\ n = num_cameras opt /\ 2 <= n) /\
  (In Call_genCameras (fst (run opt [])) -> camera_list opt = "") /\
  (forall b : bool,
     In (Call_genImages b) (fst (run opt [])) ->
     no_images opt = false /\ b = negb (camera_list opt =? "")%string).
Proof.
  split; [ | split; [ | split ] ].
  - intros H. pose proof (run_call_validated opt _ H eq_refl) as V.
    apply run_trace_in_script, in_script in H.
    destruct H as [H | [H | [H | [H | [[_ H] | [[H _] | [[H _] | [H _]]]]]]]];
      try discriminate H.
    split; [ exact H | exact (val_list_images opt V H) ].
  - intros n H. pose proof (run_call_validated opt _ H eq_refl) as V.
    apply run_trace_in_script, in_script in H.
    destruct H as [H | [H | [H | [H | [[H _] | [[H Hl] | [[H _] | [H _]]]]]]]];
      try discriminate H.
    injection H as H. subst n.
    split; [ exact Hl | split; [ reflexivity | exact (val_num opt V Hl) ] ].
  - intros H. apply run_trace_in_script, in_script in H.
    destruct H as [H | [H | [H | [H | [[H _] | [[H _] | [[_ H] | [H _]]]]]]]];
      try discriminate H.
    exact H.
  - intros b H. apply run_trace_in_script, in_script in H.
    destruct H as [H | [H | [H | [H | [[H _] | [[H _] | [[H _] | [H Hn]]]]]]]];
      try discriminate H.
    injection H as H. split; [ exact Hn | exact H ].
Qed.

End Course.

(** ** The new theorems at sample command lines *)

Lemma handle_arguments_accepts_iff_witness :
  validated sample_options /\
  succeed (A := string) tt (out_prefix sample_options) = inr tt.
Proof.
  apply (proj1 (handle_arguments_accepts_iff (succeed tt) sample_options)).
  vm_compute. reflexivity.
Defined.

Lemma handle_arguments_rejects_iff_witness : ~ validated sample_one_camera.
Proof.
  apply (proj1 (proj1
           (handle_arguments_rejects_iff (succeed tt) sample_one_camera))).
  exists msg_num_cameras. vm_compute. split; reflexivity.
Defined.

Lemma handle_arguments_validated_witness :
  validated sample_climbing /\
  handle_arguments (succeed tt) sample_climbing [] =
    ([Printed msg_heights; Call_create_out_dir "run/run"], inr tt).
Proof.
  assert (V : validated sample_climbing).
  { apply (accepted_validated (succeed tt)). vm_compute. reflexivity. }
  split; [ exact V | ].
  rewrite (handle_arguments_validated (succeed tt) sample_climbing V).
  vm_compute. reflexivity.
Defined.

Lemma camera_list_excludes_no_images_witness :
  camera_list sample_list_no_images <> "" /\
  no_images sample_list_no_images = true /\
  rejected (sample_run sample_list_no_images).
Proof.
  assert (Hl : camera_list sample_list_no_images <> "").
  { vm_compute. intros H. discriminate H. }
  split; [ exact Hl | split; [ reflexivity | ] ].
  exact (camera_list_excludes_no_images unit unit unit
           (succeed tt) (succeed tt) (succeed tt)
           (fun _ _ _ => inr tt) (fun _ _ => inr tt) (fun _ _ _ _ _ => inr tt)
           sample_list_no_images Hl eq_refl).
Defined.

Lemma angles_all_or_none_witness :
  camera_list sample_only_roll = "" /\
  0 < angles_unset sample_only_roll < 3 /\
  rejected (sample_run sample_only_roll).
Proof.
  assert (Ha : 0 < angles_unset sample_only_roll < 3).
  { vm_compute. split; reflexivity. }
  split; [ reflexivity | split; [ exact Ha | ] ].
  exact (angles_all_or_none unit unit unit
           (succeed tt) (succeed tt) (succeed tt)
           (fun _ _ _ => inr tt) (fun _ _ => inr tt) (fun _ _ _ _ _ => inr tt)
           sample_only_roll eq_refl Ha).
Defined.

Lemma ground_positions_both_or_neither_witness :
  camera_list sample_one_target = "" /\
  rejected (sample_run sample_one_target).
Proof.
  split; [ reflexivity | ].
  apply (proj1 (ground_positions_both_or_neither unit unit unit
                  (succeed tt) (succeed tt) (succeed tt)
                  (fun _ _ _ => inr tt) (fun _ _ => inr tt)
                  (fun _ _ _ _ _ => inr tt)
                  sample_one_target eq_refl)).
  vm_compute. intros H. discriminate H.
Defined.

Lemma camera_list_ignores_generation_witness :
  camera_list sample_with_list <> "" /\
  handle_arguments (succeed tt)
    (set_generation Vector3_default Vector3_default 0
       (mkVector2 NaN NaN) (mkVector2 NaN NaN) NaN (mkVector2 NaN NaN)
       sample_with_list) [] =
  handle_arguments (succeed tt) sample_with_list [].
Proof.
  assert (Hl : camera_list sample_with_list <> "").
  { vm_compute. intros H. discriminate H. }
  split; [ exact Hl | ].
  apply (camera_list_ignores_generation (succeed tt) sample_with_list Hl).
Defined.



Lemma camera_source_exclusive_witness :
  camera_list sample_list_angles <> "" /\ no_images sample_list_angles = false.
Proof.
  apply (proj1 (camera_source_exclusive unit unit unit
                  (succeed tt) (succeed tt) (succeed tt)
                  (fun _ _ _ => inr tt) (fun _ _ => inr tt)
                  (fun _ _ _ _ _ => inr tt) sample_list_angles)).
  vm_compute. do 3 right. left. reflexivity.
Defined.

Lemma early_failure_stops_run_witness :
  validated sample_options /\
  main_try (GeorefImage := unit) (Trajectory := unit) (Cameras := unit)
    (fun _ => inl (ArgumentErr "no directory")) (succeed tt) (succeed tt)
    (fun _ _ _ => inr tt) (fun _ _ => inr tt) (fun _ _ _ _ _ => inr tt)
    sample_options [] =
  ((heights_warning sample_options ++ [Call_create_out_dir "run/run"])%list,
   inl (ArgumentErr "no directory")).
Proof.
  assert (V : validated sample_options).
  { apply (accepted_validated (succeed tt)). vm_compute. reflexivity. }
  split; [ exact V | ].
  apply (proj1 (early_failure_stops_run unit unit unit
                  (fun _ => inl (ArgumentErr "no directory"))
                  (succeed tt) (succeed tt)
                  (fun _ _ _ => inr tt) (fun _ _ => inr tt)
                  (fun _ _ _ _ _ => inr tt)
                  sample_options (ArgumentErr "no directory") V)).
  reflexivity.
Defined.
